(** * eiktobel: field descriptors, collection manager, configuration layering
      and value mappers

    A shallow embedding of

    - [AnyField] (the base class of all field descriptors),
    - [CollectionManager],
    - [DecoratorConfig] and [GlobalConfig],
    - [ValueMapper],

    followed by the properties of these that the specification states.

    JavaScript values are a small universe [Js.value]; objects that are
    compared by identity or cloned live in an explicit store, so that "a new
    descriptor is returned and the old one is left alone" is a statement
    about the store and not a triviality about immutable Rocq records. *)

From Stdlib Require Import ZArith.
From stdpp Require Import base option list strings gmap.

Local Open Scope string_scope.

(* ===================================================================== *)
(** * JavaScript values                                                   *)
(* ===================================================================== *)

Module Js.

(** The run-time values the embedded code can tell apart.  Numbers carry an
    integer payload: the embedded code never does arithmetic on them, it
    only compares values against [undefined] and [null].  An object value
    is its identity. *)
Inductive value : Type :=
| VUndefined
| VNull
| VBool (b : bool)
| VNum (n : Z)
| VStr (s : string)
| VObj (id : nat).

#[global] Instance value_eq_dec : EqDecision value.
Proof. solve_decision. Defined.

(** [v === undefined] *)
Definition is_undefined (v : value) : bool :=
  match v with VUndefined => true | _ => false end.

(** [v === null] *)
Definition is_null (v : value) : bool :=
  match v with VNull => true | _ => false end.

(** [a ?? b]: [a] unless it is nullish.  An optional property or an
    optional-chaining access is an [option]; the operator is associative,
    so the source's [a ?? b ?? c] is read [a ?? (b ?? c)]. *)
Definition nullish_coalesce {A : Type} (a : option A) (b : A) : A :=
  match a with
  | Some x => x
  | None => b
  end.

(** A plain data object, by its own properties; [o[k]] of a property that
    is not there is [undefined]. *)
Definition get_property (o : gmap string value) (k : string) : value :=
  match o !! k with
  | Some v => v
  | None => VUndefined
  end.

(** What a call does: it returns or it throws. *)
Inductive outcome (A : Type) : Type :=
| Returns (a : A)
| Throws (e : value).
Arguments Returns {A} a.
Arguments Throws {A} e.

Definition outcome_bind {A B : Type} (m : outcome A) (k : A -> outcome B)
  : outcome B :=
  match m with
  | Returns a => k a
  | Throws e => Throws e
  end.

End Js.

Export Js.

Notation "a ?? b" := (nullish_coalesce a b)
  (at level 62, right associativity) : stdpp_scope.

(* ===================================================================== *)
(** * Validation results and likelihoods                                  *)
(* ===================================================================== *)

Module Validation.

(** Modelled from the spec: the module [@module/validation] is not part of
    the sources at hand.  A [ValidationResult] is "a structured result",
    "never thrown"; [invalid msg] is the failed result that carries the
    one error [msg]. *)
Record ValidationResult : Type := mkValidationResult {
  isValid : bool;
  errors : list string;
}.

Definition valid : ValidationResult :=
  {| isValid := true; errors := [] |}.

Definition invalid (msg : string) : ValidationResult :=
  {| isValid := false; errors := [msg] |}.

End Validation.

Export Validation.

Module Likelihood.

(** Modelled from the spec: [Likelihood] of [@module/inference] is not part
    of the sources at hand.  It is "a three-way confidence value (explicit /
    implicit-with-score / none)". *)
Inductive t : Type :=
| explicit
| implicit (score : Z)
| none.

End Likelihood.

(* ===================================================================== *)
(** * Field descriptors                                                   *)
(* ===================================================================== *)

(** [Checks<T>]: the interface is imported from [./checks]; all that the
    descriptor uses of it is its [validate] method. *)
Record Checks : Type := mkChecks {
  Checks_validate : value -> ValidationResult;
}.

(** Modelled from the spec: [NoChecks] of [./checks] is the "no-op variant"
    that "always succeeds". *)
Definition NoChecks : Checks :=
  {| Checks_validate := fun _ => valid |}.

(** [type BlankValue<T> = { variant: 'unspecified' } | { variant: 'explicit'; value: T }] *)
Inductive BlankValue : Type :=
| unspecified
| explicit (value : value).

Definition explicitBlankValue (value : value) : BlankValue := explicit value.

Module FieldOpts.

(** [interface FieldOpts<T>]: every property is optional. *)
Record t : Type := mk {
  blankValue : option BlankValue;
  isReadable : option bool;
  isWritable : option bool;
  useAsKey : option bool;
  isNullable : option bool;
  isOptional : option bool;
  checks : option Checks;
}.

(** The object literal [{}]. *)
Definition empty : t :=
  {| blankValue := None; isReadable := None; isWritable := None;
     useAsKey := None; isNullable := None; isOptional := None;
     checks := None |}.

End FieldOpts.

Section Fields.

(** [KeyKind] and [FieldRoleHints] are declared in modules that are not at
    hand; nothing below looks inside them. *)
Variable KeyKind : Type.
Variable FieldRoleHints : Type.

(** [isImplicitId] of [@module/inference], the implicit-id heuristic. *)
Variable isImplicitId : FieldRoleHints -> Likelihood.t.

(** What a concrete field class fixes: the abstract getter
    [defaultBlankValue], and [keyKind], which the base class answers with
    [null] and key-capable classes override. *)
Record FieldClass : Type := mkFieldClass {
  class_defaultBlankValue : value;
  class_keyKind : option KeyKind;
}.

(** The base class, whose [keyKind] is [null]. *)
Definition generic_class (defaultBlank : value) : FieldClass :=
  {| class_defaultBlankValue := defaultBlank; class_keyKind := None |}.

(** An instance of [AnyField<T, Self>]: its class and its seven private
    readonly properties. *)
Record AnyField : Type := mkAnyField {
  class_of : FieldClass;
  _blankValue : BlankValue;
  _isReadable : bool;
  _isWritable : bool;
  _isNullable : bool;
  _isOptional : bool;
  _useAsKey : bool;
  _checks : Checks;
}.

(** The body of [constructor(copyFrom?, options?)].  [options?.p] is
    [options ≫= p] and [copyFrom?._p] is [_p <$> copyFrom]. *)
Definition AnyField_constructor (c : FieldClass)
    (copyFrom : option AnyField) (options : option FieldOpts.t) : AnyField :=
  {| class_of := c;
     _blankValue :=
       (options ≫= FieldOpts.blankValue) ?? (_blankValue <$> copyFrom) ?? unspecified;
     _isReadable :=
       (options ≫= FieldOpts.isReadable) ?? (_isReadable <$> copyFrom) ?? true;
     _isWritable :=
       (options ≫= FieldOpts.isWritable) ?? (_isWritable <$> copyFrom) ?? true;
     _isNullable :=
       (options ≫= FieldOpts.isNullable) ?? (_isNullable <$> copyFrom) ?? false;
     _isOptional :=
       (options ≫= FieldOpts.isOptional) ?? (_isOptional <$> copyFrom) ?? false;
     _useAsKey :=
       (options ≫= FieldOpts.useAsKey) ?? (_useAsKey <$> copyFrom) ?? false;
     _checks :=
       (options ≫= FieldOpts.checks) ?? (_checks <$> copyFrom) ?? NoChecks |}.

(** ** [Field<T>] implementation: the getters and the two queries *)

Definition defaultBlankValue (this : AnyField) : value :=
  class_defaultBlankValue (class_of this).

Definition currentChecks (this : AnyField) : Checks := _checks this.

Definition blankValue (this : AnyField) : value :=
  match _blankValue this with
  | explicit v => v
  | unspecified => defaultBlankValue this
  end.

Definition isReadable (this : AnyField) : bool := _isReadable this.
Definition isWritable (this : AnyField) : bool := _isWritable this.
Definition isNullable (this : AnyField) : bool := _isNullable this.
Definition isOptional (this : AnyField) : bool := _isOptional this.

Definition keyKind (this : AnyField) : option KeyKind :=
  class_keyKind (class_of this).

Definition isKey (this : AnyField) (hints : FieldRoleHints) : Likelihood.t :=
  if _useAsKey this then Likelihood.explicit
  else
    match keyKind this with
    | None => Likelihood.implicit 0
    | Some _ => isImplicitId hints
    end.

Definition validate (this : AnyField) (value : value) : ValidationResult :=
  if isOptional this || negb (is_undefined value)
  then Checks_validate (_checks this) value
  else invalid "Required value missing.".

(** ** The store of descriptors and the console *)

(** A descriptor object is known by its address in the store.  The builder
    methods run in the monad [M]: they read the store, allocate, and write
    warnings to the console.  [None] is the access to an address that holds
    no object, which no TypeScript expression produces. *)
Definition ref : Type := nat.

Record world : Type := mkWorld {
  heap : list AnyField;
  console : list string;
}.

Definition M (A : Type) : Type := world -> option (A * world).

Definition ret {A : Type} (a : A) : M A := fun w => Some (a, w).

Definition bind {A B : Type} (m : M A) (k : A -> M B) : M B :=
  fun w =>
    match m w with
    | Some (a, w') => k a w'
    | None => None
    end.

Definition deref (r : ref) : M AnyField :=
  fun w =>
    match heap w !! r with
    | Some f => Some (f, w)
    | None => None
    end.

(** [new]: the object gets the next free address. *)
Definition alloc (f : AnyField) : M ref :=
  fun w =>
    Some (length (heap w), {| heap := heap w ++ [f]; console := console w |}).

Definition console_warn (msg : string) : M unit :=
  fun w =>
    Some (tt, {| heap := heap w; console := console w ++ [msg] |}).

(** [if (c) console.warn(msg)] *)
Definition warn_if (c : bool) (msg : string) : M unit :=
  if c then console_warn msg else ret tt.

Local Notation "x <- m ;; k" := (bind m (fun x => k))
  (at level 63, m at next level, right associativity).

(** [new C(copyFrom, options)] for a concrete class [C]: the base
    constructor reads the properties of [copyFrom], when there is one, and
    the new object is allocated. *)
Definition new_AnyField (c : FieldClass)
    (copyFrom : option ref) (options : option FieldOpts.t) : M ref :=
  src <- match copyFrom with
         | Some r => f <- deref r ;; ret (Some f)
         | None => ret None
         end ;;
  alloc (AnyField_constructor c src options).

(** Modelled from the spec: [cloneAsSelf] is abstract in [AnyField] and the
    concrete field classes that implement it are not at hand.  Its contract
    is "clones this object", with [options] the "options to pass to the
    parent constructor"; a builder "returns a new descriptor with the
    option changed, preserving all others via the copy-chain".  So it is
    [new Self(this, options)]. *)
Definition cloneAsSelf (this : ref) (options : FieldOpts.t) : M ref :=
  f <- deref this ;;
  new_AnyField (class_of f) (Some this) (Some options).

(** ** Builder methods *)

(** [variant !== 'unspecified'] *)
Definition is_specified (b : BlankValue) : bool :=
  match b with
  | unspecified => false
  | explicit _ => true
  end.

Definition withBlankValue (this : ref) (value : value) : M ref :=
  f <- deref this ;;
  _ <- warn_if (is_specified (_blankValue f))
         "withBlankValue modifier used twice on the same field" ;;
  cloneAsSelf this
    {| FieldOpts.blankValue := Some (explicitBlankValue value);
       FieldOpts.isReadable := None; FieldOpts.isWritable := None;
       FieldOpts.useAsKey := None; FieldOpts.isNullable := None;
       FieldOpts.isOptional := None; FieldOpts.checks := None |}.

Definition readOnly (this : ref) : M ref :=
  f <- deref this ;;
  _ <- warn_if (negb (_isReadable f))
         "readOnly modifier used on non-readable field" ;;
  cloneAsSelf this
    {| FieldOpts.blankValue := None;
       FieldOpts.isReadable := Some true; FieldOpts.isWritable := Some false;
       FieldOpts.useAsKey := None; FieldOpts.isNullable := None;
       FieldOpts.isOptional := None; FieldOpts.checks := None |}.

Definition writeOnly (this : ref) : M ref :=
  f <- deref this ;;
  _ <- warn_if (negb (_isWritable f))
         "writeOnly modifier used on non-writable field" ;;
  cloneAsSelf this
    {| FieldOpts.blankValue := None;
       FieldOpts.isReadable := Some false; FieldOpts.isWritable := Some true;
       FieldOpts.useAsKey := None; FieldOpts.isNullable := None;
       FieldOpts.isOptional := None; FieldOpts.checks := None |}.

Definition asKey (this : ref) : M ref :=
  f <- deref this ;;
  _ <- warn_if (_useAsKey f)
         "asKey modifier used twice on the same field" ;;
  cloneAsSelf this
    {| FieldOpts.blankValue := None;
       FieldOpts.isReadable := None; FieldOpts.isWritable := None;
       FieldOpts.useAsKey := Some true; FieldOpts.isNullable := None;
       FieldOpts.isOptional := None; FieldOpts.checks := None |}.

(** Modelled from the spec: [optional] is abstract in [AnyField].  It is a
    builder, hence "returns a new descriptor with the option changed,
    preserving all others via the copy-chain"; the option is
    [isOptional]. *)
Definition optional (this : ref) : M ref :=
  cloneAsSelf this
    {| FieldOpts.blankValue := None;
       FieldOpts.isReadable := None; FieldOpts.isWritable := None;
       FieldOpts.useAsKey := None; FieldOpts.isNullable := None;
       FieldOpts.isOptional := Some true; FieldOpts.checks := None |}.

(** The descriptor that a builder expression evaluates to. *)
Definition result_of (m : M ref) (w : world) : option AnyField :=
  match m w with
  | Some (r, w') => heap w' !! r
  | None => None
  end.

(** Run in [w], the builder expression [m] returns a descriptor that [w] did
    not hold, distinct from the descriptor at [a], and every descriptor of
    [w], that at [a] first of all, is in the new store as it was. *)
Definition returns_new_leaving (m : M ref) (w : world) (a : ref) (f : AnyField)
  : Prop :=
  exists (r : ref) (w' : world),
    m w = Some (r, w') /\
    r <> a /\
    heap w !! r = None /\
    is_Some (heap w' !! r) /\
    heap w' !! a = Some f /\
    (forall (b : ref) (g : AnyField),
        heap w !! b = Some g -> heap w' !! b = Some g).

End Fields.

Arguments mkFieldClass {KeyKind} _ _.
Arguments class_defaultBlankValue {KeyKind} _.
Arguments class_keyKind {KeyKind} _.
Arguments generic_class {KeyKind} _.
Arguments mkAnyField {KeyKind} _ _ _ _ _ _ _ _.
Arguments class_of {KeyKind} _.
Arguments _blankValue {KeyKind} _.
Arguments _isReadable {KeyKind} _.
Arguments _isWritable {KeyKind} _.
Arguments _isNullable {KeyKind} _.
Arguments _isOptional {KeyKind} _.
Arguments _useAsKey {KeyKind} _.
Arguments _checks {KeyKind} _.
Arguments AnyField_constructor {KeyKind} _ _ _.
Arguments defaultBlankValue {KeyKind} _.
Arguments currentChecks {KeyKind} _.
Arguments blankValue {KeyKind} _.
Arguments isReadable {KeyKind} _.
Arguments isWritable {KeyKind} _.
Arguments isNullable {KeyKind} _.
Arguments isOptional {KeyKind} _.
Arguments keyKind {KeyKind} _.
Arguments isKey {KeyKind FieldRoleHints} _ _ _.
Arguments validate {KeyKind} _ _.
Arguments mkWorld {KeyKind} _ _.
Arguments heap {KeyKind} _.
Arguments console {KeyKind} _.
Arguments ret {KeyKind A} _ _.
Arguments bind {KeyKind A B} _ _ _.
Arguments deref {KeyKind} _ _.
Arguments alloc {KeyKind} _ _.
Arguments console_warn {KeyKind} _ _.
Arguments warn_if {KeyKind} _ _ _.
Arguments new_AnyField {KeyKind} _ _ _ _.
Arguments cloneAsSelf {KeyKind} _ _ _.
Arguments withBlankValue {KeyKind} _ _ _.
Arguments readOnly {KeyKind} _ _.
Arguments writeOnly {KeyKind} _ _.
Arguments asKey {KeyKind} _ _.
Arguments optional {KeyKind} _ _.
Arguments result_of {KeyKind} _ _.
Arguments returns_new_leaving {KeyKind} _ _ _ _.

Notation "x <- m ;; k" := (bind m (fun x => k))
  (at level 63, m at next level, right associativity) : stdpp_scope.

(* ===================================================================== *)
(** * Collection manager                                                  *)
(* ===================================================================== *)

Module CollectionManager.
Section WithKeyKind.

Variable KeyKind : Type.

(** An item: an object of the resource type, property name to value. *)
Definition item : Type := gmap string value.

(** [DescriptorInterpreter] of [./interpreters], by the two methods that
    the manager calls.  [findKey] may throw: key resolution fails when no
    field qualifies. *)
Record DescriptorInterpreter : Type := mkInterpreter {
  findKey : outcome (string * KeyKind);
  interpreter_createInstance : string -> item;
}.

Record t : Type := mk {
  _interpreter : DescriptorInterpreter;
  _key : string;
  _keyKind : KeyKind;
}.

(** [new CollectionManager(descriptor)], from the interpreter that
    [getInterpreterFor(descriptor)] gives. *)
Definition constructor (interpreter : DescriptorInterpreter) : outcome t :=
  outcome_bind (findKey interpreter) (fun keyFound =>
    Returns {| _interpreter := interpreter;
               _key := fst keyFound;
               _keyKind := snd keyFound |}).

Definition key (this : t) : string := _key this.
Definition keyKind (this : t) : KeyKind := _keyKind this.

(** [item[this.key] === null] *)
Definition isNew (this : t) (it : item) : bool :=
  is_null (get_property it (key this)).

Definition getKeyOf (this : t) (it : item) : value :=
  get_property it (key this).

(** [item[this.key] = key]: the item after the assignment. *)
Definition setKeyOf (this : t) (it : item) (k : value) : item :=
  <[key this := k]> it.

Definition createInstance (this : t) : item :=
  interpreter_createInstance (_interpreter this) (_key this).

Definition createOrUpdateOne (this : t) (k : value) (it : item) : item := it.

Definition updateAll (this : t) (items : list item) : list item := items.

End WithKeyKind.

Arguments mkInterpreter {KeyKind} _ _.
Arguments findKey {KeyKind} _.
Arguments interpreter_createInstance {KeyKind} _ _.
Arguments mk {KeyKind} _ _ _.
Arguments _interpreter {KeyKind} _.
Arguments _key {KeyKind} _.
Arguments _keyKind {KeyKind} _.
Arguments constructor {KeyKind} _.
Arguments key {KeyKind} _.
Arguments keyKind {KeyKind} _.
Arguments isNew {KeyKind} _ _.
Arguments getKeyOf {KeyKind} _ _.
Arguments setKeyOf {KeyKind} _ _ _.
Arguments createInstance {KeyKind} _.
Arguments createOrUpdateOne {KeyKind} _ _ _.
Arguments updateAll {KeyKind} _ _.

End CollectionManager.

(* ===================================================================== *)
(** * Configuration layering                                              *)
(* ===================================================================== *)

Module Config.
Section WithHandlers.

(** [BadResponseHandler]: a function type; handlers are told apart by
    identity only. *)
Variable BadResponseHandler : Type.

(** [defaultConfig.badResponseHandler], the built-in handler of
    [@module/config/default]. *)
Variable defaultBadResponseHandler : BadResponseHandler.

(** [Config[P] | ResetValue]: what an override of a property holds. *)
Inductive override (A : Type) : Type :=
| resetValue            (* the string 'default' *)
| replacement (a : A).

(** [type ConfigOverride = { [P in keyof Config]?: Config[P] | ResetValue }],
    with the one property that [Config] is known to have. *)
Record ConfigOverride : Type := mkOverride {
  override_badResponseHandler : option (override BadResponseHandler);
}.

(** The objects that implement [Config] behind [GlobalConfig]: the
    built-in [defaultConfig] and the decorators over it. *)
Inductive t : Type :=
| defaultConfig
| DecoratorConfig (_wrapped : t) (_overrides : ConfigOverride).

(** The body of [overrideConfigProperty(p)], given [this._wrapped[p]],
    [defaultConfig[p]] and [this._overrides[p]]. *)
Definition overrideConfigProperty {A : Type}
    (wrapped_p default_p : A) (option : option (override A)) : A :=
  let finalValue := wrapped_p in
  match option with
  | Some (resetValue _) => default_p
  | Some (replacement _ v) => v
  | None => finalValue
  end.

(** The getter [badResponseHandler] of a configuration object. *)
Fixpoint badResponseHandler (this : t) : BadResponseHandler :=
  match this with
  | defaultConfig => defaultBadResponseHandler
  | DecoratorConfig wrapped overrides =>
      overrideConfigProperty (badResponseHandler wrapped)
        defaultBadResponseHandler (override_badResponseHandler overrides)
  end.

(** [class GlobalConfig]: the one mutable property [_current]. *)
Record GlobalConfig : Type := mkGlobal {
  _current : t;
}.

(** [new GlobalConfig()], the initial value of [__glob__]. *)
Definition GlobalConfig_new : GlobalConfig :=
  {| _current := defaultConfig |}.

Definition set (options : ConfigOverride) (this : GlobalConfig) : GlobalConfig :=
  {| _current := DecoratorConfig defaultConfig options |}.

Definition GlobalConfig_badResponseHandler (this : GlobalConfig)
  : BadResponseHandler :=
  badResponseHandler (_current this).

(** [globalConfig(options)] and [getGlobalConfig()] act on the module's
    object [__glob__], whose state is passed explicitly;
    [getGlobalConfig] hands out that very object. *)
Definition globalConfig (options : ConfigOverride) (__glob__ : GlobalConfig)
  : GlobalConfig :=
  set options __glob__.

Definition getGlobalConfig (__glob__ : GlobalConfig) : GlobalConfig :=
  __glob__.

End WithHandlers.

Arguments resetValue {A}.
Arguments replacement {A} a.
Arguments mkOverride {BadResponseHandler} _.
Arguments override_badResponseHandler {BadResponseHandler} _.
Arguments defaultConfig {BadResponseHandler}.
Arguments DecoratorConfig {BadResponseHandler} _ _.
Arguments badResponseHandler {BadResponseHandler} _ _.
Arguments mkGlobal {BadResponseHandler} _.
Arguments _current {BadResponseHandler} _.
Arguments GlobalConfig_new {BadResponseHandler}.
Arguments set {BadResponseHandler} _ _.
Arguments GlobalConfig_badResponseHandler {BadResponseHandler} _ _.
Arguments globalConfig {BadResponseHandler} _ _.
Arguments getGlobalConfig {BadResponseHandler} _.

End Config.

(* ===================================================================== *)
(** * Value mappers                                                       *)
(* ===================================================================== *)

Module ValueMapper.
Section WithTypes.

(** [T], the mapped type, and the values of TypeScript's [unknown] that
    travel as payloads; nothing below looks inside either. *)
Variable T : Type.
Variable unknown : Type.

(** The three abstract members of [ValueMapper<T>]; the two hooks may
    throw. *)
Record t : Type := mk {
  expectedResponseType : string;
  packValue : T -> outcome unknown;
  unpackValue : unknown -> outcome T;
}.

(** Modelled from the spec: the class [JsonRequestBody] is not at hand; it
    is the "JSON body" that [pack] constructs around the packed value. *)
Inductive RequestBodyOrParams : Type :=
| JsonRequestBody (payload : unknown).

(** [ResponseBody], by what awaiting [response.json()] gives. *)
Record ResponseBody : Type := mkResponse {
  json : outcome unknown;
}.

Definition pack (this : t) (value : T) : outcome RequestBodyOrParams :=
  outcome_bind (packValue this value) (fun packed =>
    Returns (JsonRequestBody packed)).

(** The value that the promise of [unpack] settles to. *)
Definition unpack (this : t) (response : ResponseBody) : outcome T :=
  outcome_bind (json response) (fun body => unpackValue this body).

End WithTypes.

Arguments mk {T unknown} _ _ _.
Arguments expectedResponseType {T unknown} _.
Arguments packValue {T unknown} _ _.
Arguments unpackValue {T unknown} _ _.
Arguments JsonRequestBody {unknown} _.
Arguments mkResponse {unknown} _.
Arguments json {unknown} _.
Arguments pack {T unknown} _ _.
Arguments unpack {T unknown} _ _.

End ValueMapper.

(* ===================================================================== *)
(** * Sample objects                                                      *)
(* ===================================================================== *)

(** Checks that reject every value, and checks that reject [null] only. *)
Definition rejecting_checks : Checks :=
  {| Checks_validate := fun _ => invalid "rejected" |}.

Definition non_null_checks : Checks :=
  {| Checks_validate := fun v => if is_null v then invalid "null" else valid |}.

(** A generic field class (no key kind) whose default blank value is the
    empty string, and a key-capable one whose default is [null]. *)
Definition string_class : FieldClass unit := generic_class (VStr "").

Definition key_class : FieldClass unit :=
  {| class_defaultBlankValue := VNull; class_keyKind := Some tt |}.

(** [new C()], [new C(undefined, { checks })] and
    [new C(undefined, { isOptional: true, checks })]. *)
Definition plain_field (c : FieldClass unit) : AnyField unit :=
  AnyField_constructor c None None.

Definition checked_field (c : FieldClass unit) (ch : Checks) : AnyField unit :=
  AnyField_constructor c None
    (Some {| FieldOpts.blankValue := None;
             FieldOpts.isReadable := None; FieldOpts.isWritable := None;
             FieldOpts.useAsKey := None; FieldOpts.isNullable := None;
             FieldOpts.isOptional := None; FieldOpts.checks := Some ch |}).

Definition optional_checked_field (c : FieldClass unit) (ch : Checks)
  : AnyField unit :=
  AnyField_constructor c None
    (Some {| FieldOpts.blankValue := None;
             FieldOpts.isReadable := None; FieldOpts.isWritable := None;
             FieldOpts.useAsKey := None; FieldOpts.isNullable := None;
             FieldOpts.isOptional := Some true; FieldOpts.checks := Some ch |}).

(** [new C(undefined, { useAsKey: true })] *)
Definition marked_key_field (c : FieldClass unit) : AnyField unit :=
  AnyField_constructor c None
    (Some {| FieldOpts.blankValue := None;
             FieldOpts.isReadable := None; FieldOpts.isWritable := None;
             FieldOpts.useAsKey := Some true; FieldOpts.isNullable := None;
             FieldOpts.isOptional := None; FieldOpts.checks := None |}).

(** A heuristic that scores a field by the length of its name. *)
Definition name_length_heuristic (hints : string) : Likelihood.t :=
  Likelihood.implicit (Z.of_nat (String.length hints)).

(** A store with one plain string field, at address 0. *)
Definition one_field_world : world unit :=
  {| heap := [plain_field string_class]; console := [] |}.

(** A manager whose key property is [id], of some integer kind. *)
Definition id_manager : CollectionManager.t unit :=
  {| CollectionManager._interpreter :=
       {| CollectionManager.findKey := Returns ("id", tt);
          CollectionManager.interpreter_createInstance := fun _ => ∅ |};
     CollectionManager._key := "id";
     CollectionManager._keyKind := tt |}.

Definition unsaved_item : gmap string value :=
  {[ "id" := VNull; "name" := VStr "x" ]}.

Definition saved_item : gmap string value :=
  {[ "id" := VNum 7; "name" := VStr "x" ]}.

(** A mapper of integers that refuses the negative ones. *)
Definition natural_mapper : ValueMapper.t Z value :=
  {| ValueMapper.expectedResponseType := "number";
     ValueMapper.packValue :=
       fun n => if (n <? 0)%Z then Throws (VStr "negative") else Returns (VNum n);
     ValueMapper.unpackValue :=
       fun body =>
         match body with
         | VNum n => Returns n
         | _ => Throws (VStr "not a number")
         end |}.

(** An interpreter that finds the key [id] and fills a blank instance, and
    one whose key resolution fails. *)
Definition id_interpreter : CollectionManager.DescriptorInterpreter unit :=
  {| CollectionManager.findKey := Returns ("id", tt);
     CollectionManager.interpreter_createInstance :=
       fun k => {[ k := VNull; "name" := VStr "" ]} |}.

Definition keyless_interpreter : CollectionManager.DescriptorInterpreter unit :=
  {| CollectionManager.findKey := Throws (VStr "no key");
     CollectionManager.interpreter_createInstance := fun _ => ∅ |}.

(* ===================================================================== *)
(** * Notions used to state the properties                                *)
(* ===================================================================== *)

(** The override that the outermost overriding layer of a configuration
    holds for [badResponseHandler], if any layer has one. *)
Fixpoint outermost_override {BadResponseHandler : Type}
    (c : Config.t BadResponseHandler)
  : option (Config.override BadResponseHandler) :=
  match c with
  | Config.defaultConfig => None
  | Config.DecoratorConfig wrapped overrides =>
      match Config.override_badResponseHandler overrides with
      | Some x => Some x
      | None => outermost_override wrapped
      end
  end.

(** What one override asks for, given the built-in value. *)
Definition override_value {A : Type} (builtin : A)
    (x : option (Config.override A)) : A :=
  match x with
  | Some (Config.replacement v) => v
  | Some Config.resetValue => builtin
  | None => builtin
  end.

(** A sequence of calls [globalConfig(o1); ...; globalConfig(on)]. *)
Definition globalConfig_calls {BadResponseHandler : Type}
    (calls : list (Config.ConfigOverride BadResponseHandler))
    (__glob__ : Config.GlobalConfig BadResponseHandler)
  : Config.GlobalConfig BadResponseHandler :=
  fold_left (fun glob options => Config.globalConfig options glob) calls __glob__.

(** The console of the store that a builder expression leaves. *)
Definition console_after {KeyKind : Type} (m : M KeyKind ref) (w : world KeyKind)
  : option (list string) :=
  match m w with
  | Some (_, w') => Some (console w')
  | None => None
  end.

(* ===================================================================== *)
(** * Properties of [validate] and [isKey]                                *)
(* ===================================================================== *)

Section FieldQueries.

Context {KeyKind FieldRoleHints : Type}.
Variable isImplicitId : FieldRoleHints -> Likelihood.t.
Implicit Types (f : AnyField KeyKind) (v : value).

(** The guard of [validate], case by case. *)
Lemma validate_delegates f v :
  isOptional f || negb (is_undefined v) = true ->
  validate f v = Checks_validate (currentChecks f) v.
Proof. intros Hguard. unfold validate, currentChecks. now rewrite Hguard. Qed.

Lemma validate_rejects f v :
  isOptional f || negb (is_undefined v) = false ->
  validate f v = invalid "Required value missing.".
Proof. intros Hguard. unfold validate. now rewrite Hguard. Qed.

Lemma is_undefined_false v : v <> VUndefined -> is_undefined v = false.
Proof. destruct v; simpl; congruence. Qed.

(** C1, amended.  On an optional descriptor, validating the absent value
    [undefined] does apply the configured checks: the result is exactly
    [checks.validate(undefined)].  It succeeds when the checks accept
    [undefined], as the default [NoChecks] do. *)
Theorem validate_optional_absent f :
  isOptional f = true ->
  validate f VUndefined = Checks_validate (currentChecks f) VUndefined /\
  (currentChecks f = NoChecks -> validate f VUndefined = valid).
Proof.
  intros Hopt.
  assert (Hdel : validate f VUndefined
                 = Checks_validate (currentChecks f) VUndefined).
  { apply validate_delegates. now rewrite Hopt. }
  split; [exact Hdel |].
  intros Hno. now rewrite Hdel, Hno.
Qed.

(** C2.  On a descriptor that is not optional, validating the absent value
    [undefined] gives the invalid result that carries the error
    "Required value missing.", whatever the configured checks. *)
Theorem validate_required_absent f :
  isOptional f = false ->
  validate f VUndefined = invalid "Required value missing." /\
  isValid (validate f VUndefined) = false /\
  errors (validate f VUndefined) = ["Required value missing."].
Proof.
  intros Hreq.
  assert (Hrej : validate f VUndefined = invalid "Required value missing.").
  { apply validate_rejects. now rewrite Hreq. }
  now rewrite Hrej.
Qed.

(** C3.  [isKey(hints)] is the explicit likelihood on a descriptor marked
    as key; on one that is not marked it is the implicit likelihood of score
    0 when [keyKind] is [null], and otherwise exactly what the implicit-id
    heuristic says of the hints. *)
Theorem isKey_cases f (hints : FieldRoleHints) :
  (_useAsKey f = true -> isKey isImplicitId f hints = Likelihood.explicit) /\
  (_useAsKey f = false -> keyKind f = None ->
   isKey isImplicitId f hints = Likelihood.implicit 0) /\
  (_useAsKey f = false -> keyKind f <> None ->
   isKey isImplicitId f hints = isImplicitId hints).
Proof.
  unfold isKey. repeat split.
  - now intros ->.
  - now intros -> ->.
  - intros -> Hkind. destruct (keyKind f); [reflexivity | congruence].
Qed.

(** C10.  Only [undefined] counts as absent.  A descriptor that is not
    optional hands [null] to its checks and returns [checks.validate(null)],
    and so it does with every value other than [undefined]. *)
Theorem validate_null_is_present f :
  isOptional f = false ->
  validate f VNull = Checks_validate (currentChecks f) VNull /\
  (forall v, v <> VUndefined ->
             validate f v = Checks_validate (currentChecks f) v) /\
  (forall v, validate f v = invalid "Required value missing." ->
             v = VUndefined \/
             Checks_validate (currentChecks f) v
             = invalid "Required value missing.").
Proof.
  intros Hreq. split; [| split].
  - apply validate_delegates. now rewrite Hreq.
  - intros v Hv. apply validate_delegates.
    rewrite (is_undefined_false v Hv). now rewrite orb_true_r.
  - intros v Hres. destruct (decide (v = VUndefined)) as [-> | Hv]; [now left |].
    right. rewrite <- Hres. symmetry. apply validate_delegates.
    rewrite (is_undefined_false v Hv). now rewrite orb_true_r.
Qed.

End FieldQueries.

(** C1 as stated fails: an optional descriptor whose checks reject
    everything does not validate [undefined]. *)
Lemma validate_optional_absent_can_fail :
  isOptional (optional_checked_field string_class rejecting_checks) = true /\
  validate (optional_checked_field string_class rejecting_checks) VUndefined
  = invalid "rejected" /\
  ~ (forall f : AnyField unit,
        isOptional f = true -> isValid (validate f VUndefined) = true).
Proof.
  split; [reflexivity |]. split; [reflexivity |].
  intros Hall.
  specialize (Hall (optional_checked_field string_class rejecting_checks) eq_refl).
  discriminate Hall.
Qed.

Lemma validate_optional_absent_witness :
  validate (optional_checked_field string_class non_null_checks) VUndefined
  = Checks_validate non_null_checks VUndefined /\
  (currentChecks (optional_checked_field string_class non_null_checks) = NoChecks ->
   validate (optional_checked_field string_class non_null_checks) VUndefined = valid).
Proof.
  apply (validate_optional_absent
           (optional_checked_field string_class non_null_checks)).
  reflexivity.
Defined.

Lemma validate_required_absent_witness :
  validate (checked_field string_class non_null_checks) VUndefined
  = invalid "Required value missing." /\
  isValid (validate (checked_field string_class non_null_checks) VUndefined)
  = false /\
  errors (validate (checked_field string_class non_null_checks) VUndefined)
  = ["Required value missing."].
Proof.
  apply (validate_required_absent (checked_field string_class non_null_checks)).
  reflexivity.
Defined.

Lemma isKey_cases_witness :
  isKey name_length_heuristic (marked_key_field key_class) "id"
  = Likelihood.explicit /\
  isKey name_length_heuristic (plain_field string_class) "id"
  = Likelihood.implicit 0 /\
  isKey name_length_heuristic (plain_field key_class) "id"
  = Likelihood.implicit 2.
Proof.
  split; [| split].
  - apply (isKey_cases name_length_heuristic (marked_key_field key_class) "id").
    reflexivity.
  - apply (isKey_cases name_length_heuristic (plain_field string_class) "id");
      reflexivity.
  - apply (isKey_cases name_length_heuristic (plain_field key_class) "id");
      [reflexivity | discriminate].
Defined.

Lemma validate_null_is_present_witness :
  isOptional (checked_field string_class non_null_checks) = false /\
  validate (checked_field string_class non_null_checks) VNull = invalid "null".
Proof.
  assert (Hreq : isOptional (checked_field string_class non_null_checks) = false)
    by reflexivity.
  split; [exact Hreq |].
  exact (proj1 (validate_null_is_present _ Hreq)).
Defined.

(* ===================================================================== *)
(** * Properties of the builder methods                                   *)
(* ===================================================================== *)

Section Builders.

Context {KeyKind : Type}.
Implicit Types (w : world KeyKind) (f g : AnyField KeyKind) (a r : ref)
  (o : FieldOpts.t) (v : value).

(** ** What the monadic operations compute *)

Lemma cloneAsSelf_run w a f o :
  heap w !! a = Some f ->
  cloneAsSelf a o w
  = Some (length (heap w),
          {| heap := heap w ++ [AnyField_constructor (class_of f) (Some f) (Some o)];
             console := console w |}).
Proof.
  intros Ha. unfold cloneAsSelf, new_AnyField, bind, deref, ret, alloc.
  rewrite Ha. simpl. now rewrite Ha.
Qed.

(** Every builder has the shape: read [this], warn under a condition on it,
    clone with some options. *)
Lemma builder_run w a f (cond : AnyField KeyKind -> bool) (msg : string) o :
  heap w !! a = Some f ->
  (this <- deref a ;; _ <- warn_if (cond this) msg ;; cloneAsSelf a o) w
  = Some (length (heap w),
          {| heap := heap w ++ [AnyField_constructor (class_of f) (Some f) (Some o)];
             console := if cond f then console w ++ [msg] else console w |}).
Proof.
  intros Ha. unfold bind at 1. unfold deref. rewrite Ha.
  unfold bind, warn_if.
  destruct (cond f); unfold console_warn, ret;
    erewrite cloneAsSelf_run by exact Ha; reflexivity.
Qed.

Lemma lookup_fresh (l : list (AnyField KeyKind)) g :
  (l ++ [g])%list !! length l = Some g.
Proof. now apply list_lookup_middle. Qed.

Lemma result_of_builder w a f (cond : AnyField KeyKind -> bool) (msg : string) o :
  heap w !! a = Some f ->
  result_of (this <- deref a ;; _ <- warn_if (cond this) msg ;; cloneAsSelf a o) w
  = Some (AnyField_constructor (class_of f) (Some f) (Some o)).
Proof.
  intros Ha. unfold result_of. rewrite (builder_run w a f cond msg o Ha).
  simpl. apply lookup_fresh.
Qed.

(** Running a builder on the result of a builder. *)
Lemma result_of_then w a f (cond1 cond2 : AnyField KeyKind -> bool)
    (msg1 msg2 : string) o1 o2 :
  heap w !! a = Some f ->
  result_of
    (r <- (this <- deref a ;; _ <- warn_if (cond1 this) msg1 ;; cloneAsSelf a o1) ;;
     (this <- deref r ;; _ <- warn_if (cond2 this) msg2 ;; cloneAsSelf r o2)) w
  = Some (AnyField_constructor (class_of f)
            (Some (AnyField_constructor (class_of f) (Some f) (Some o1)))
            (Some o2)).
Proof.
  intros Ha. unfold result_of. unfold bind at 1.
  rewrite (builder_run w a f cond1 msg1 o1 Ha).
  set (g := AnyField_constructor (class_of f) (Some f) (Some o1)).
  set (w1 := {| heap := heap w ++ [g]; console := _ |}).
  assert (Hr : heap w1 !! length (heap w) = Some g) by apply lookup_fresh.
  rewrite (builder_run w1 _ g cond2 msg2 o2 Hr).
  simpl. apply lookup_fresh.
Qed.

Lemma builder_returns_new_leaving w a f
    (cond : AnyField KeyKind -> bool) (msg : string) o :
  heap w !! a = Some f ->
  returns_new_leaving
    (this <- deref a ;; _ <- warn_if (cond this) msg ;; cloneAsSelf a o) w a f.
Proof.
  intros Ha. unfold returns_new_leaving.
  eexists _, _. split; [apply (builder_run w a f cond msg o Ha) |].
  simpl. repeat split.
  - apply lookup_lt_Some in Ha. lia.
  - now apply lookup_ge_None_2.
  - rewrite lookup_fresh. eauto.
  - now apply lookup_app_l_Some.
  - intros b g Hb. now apply lookup_app_l_Some.
Qed.

(** ** The claims *)

(** C5.  The descriptor that [readOnly] returns is readable and not
    writable, the one that [writeOnly] returns is writable and not readable,
    and after both in sequence the state is that of the one applied last. *)
Theorem readOnly_writeOnly_access w a f :
  heap w !! a = Some f ->
  (exists g, result_of (readOnly a) w = Some g /\
             isWritable g = false /\ isReadable g = true) /\
  (exists g, result_of (writeOnly a) w = Some g /\
             isWritable g = true /\ isReadable g = false) /\
  (exists g, result_of (r <- readOnly a ;; writeOnly r) w = Some g /\
             isWritable g = true /\ isReadable g = false) /\
  (exists g, result_of (r <- writeOnly a ;; readOnly r) w = Some g /\
             isWritable g = false /\ isReadable g = true).
Proof.
  intros Ha. repeat split.
  - eexists. split; [apply (result_of_builder w a f _ _ _ Ha) |]. now split.
  - eexists. split; [apply (result_of_builder w a f _ _ _ Ha) |]. now split.
  - eexists. split; [apply (result_of_then w a f _ _ _ _ _ _ Ha) |]. now split.
  - eexists. split; [apply (result_of_then w a f _ _ _ _ _ _ Ha) |]. now split.
Qed.

(** C6.  Each of the builders [withBlankValue], [readOnly], [writeOnly] and
    [asKey], called on the descriptor A, returns a descriptor that is new
    (it is not A and was not in the store) and leaves A, hence each of its
    attributes, and every other descriptor as it was. *)
Theorem builders_do_not_mutate w a f v :
  heap w !! a = Some f ->
  returns_new_leaving (withBlankValue a v) w a f /\
  returns_new_leaving (readOnly a) w a f /\
  returns_new_leaving (writeOnly a) w a f /\
  returns_new_leaving (asKey a) w a f.
Proof.
  intros Ha. repeat split.
  - apply (builder_returns_new_leaving w a f (fun this => is_specified (_blankValue this)) _ _ Ha).
  - apply (builder_returns_new_leaving w a f (fun this => negb (_isReadable this)) _ _ Ha).
  - apply (builder_returns_new_leaving w a f (fun this => negb (_isWritable this)) _ _ Ha).
  - apply (builder_returns_new_leaving w a f (fun this => _useAsKey this) _ _ Ha).
Qed.

(** C7.  The descriptor that [withBlankValue(v)] returns has [blankValue]
    exactly [v], whatever the default blank value of its class, which is the
    class of the original. *)
Theorem withBlankValue_blankValue w a f v :
  heap w !! a = Some f ->
  exists g, result_of (withBlankValue a v) w = Some g /\
            class_of g = class_of f /\
            blankValue g = v.
Proof.
  intros Ha. eexists. split; [| split].
  - apply (result_of_builder w a f (fun this => is_specified (_blankValue this)) _ _ Ha).
  - reflexivity.
  - reflexivity.
Qed.

End Builders.

Lemma readOnly_writeOnly_access_witness :
  heap one_field_world !! 0%nat = Some (plain_field string_class) /\
  (exists g, result_of (r <- readOnly 0%nat ;; writeOnly r) one_field_world = Some g /\
             isWritable g = true /\ isReadable g = false).
Proof.
  assert (Ha : heap one_field_world !! 0%nat = Some (plain_field string_class))
    by reflexivity.
  split; [exact Ha |].
  destruct (readOnly_writeOnly_access one_field_world 0%nat _ Ha)
    as (_ & _ & Hseq & _).
  exact Hseq.
Defined.

Lemma builders_do_not_mutate_witness :
  heap one_field_world !! 0%nat = Some (plain_field string_class) /\
  returns_new_leaving (readOnly 0%nat) one_field_world 0%nat
    (plain_field string_class).
Proof.
  assert (Ha : heap one_field_world !! 0%nat = Some (plain_field string_class))
    by reflexivity.
  split; [exact Ha |].
  destruct (builders_do_not_mutate one_field_world 0%nat _ (VStr "n/a") Ha)
    as (_ & Hro & _).
  exact Hro.
Defined.

Lemma withBlankValue_blankValue_witness :
  heap one_field_world !! 0%nat = Some (plain_field string_class) /\
  (exists g, result_of (withBlankValue 0%nat VNull) one_field_world = Some g /\
             class_of g = class_of (plain_field string_class) /\
             blankValue g = VNull).
Proof.
  assert (Ha : heap one_field_world !! 0%nat = Some (plain_field string_class))
    by reflexivity.
  split; [exact Ha |].
  exact (withBlankValue_blankValue one_field_world 0%nat _ VNull Ha).
Defined.

(** The blank value is the default of the class until [withBlankValue]
    says otherwise, and the second [readOnly] in a row is the one that
    warns. *)
Example blankValue_default :
  blankValue (plain_field string_class) = VStr "".
Proof. reflexivity. Qed.

Example writeOnly_then_readOnly_warns :
  (r <- writeOnly 0%nat ;; readOnly r) one_field_world
  = Some (2%nat,
          {| heap :=
               [plain_field string_class;
                mkAnyField string_class unspecified false true false false false NoChecks;
                mkAnyField string_class unspecified true false false false false NoChecks];
             console := ["readOnly modifier used on non-readable field"] |}).
Proof. reflexivity. Qed.

(** [optional], as modelled, sets [isOptional] and keeps the checks: the
    checks of the original are the ones that then see [undefined]. *)
Lemma optional_result {KeyKind : Type} (w : world KeyKind) (a : ref)
    (f : AnyField KeyKind) :
  heap w !! a = Some f ->
  exists g, result_of (optional a) w = Some g /\
            isOptional g = true /\
            currentChecks g = currentChecks f /\
            validate g VUndefined = Checks_validate (currentChecks f) VUndefined.
Proof.
  intros Ha. unfold result_of, optional.
  rewrite (cloneAsSelf_run w a f _ Ha). simpl.
  rewrite lookup_fresh. eexists. split; [reflexivity |].
  repeat split.
Qed.

(* ===================================================================== *)
(** * Properties of the collection manager                                *)
(* ===================================================================== *)

Lemma is_null_true (v : value) : is_null v = true <-> v = VNull.
Proof. destruct v; simpl; split; congruence. Qed.

(** C8.  [isNew(item)] is true exactly when the key property of the item is
    [null]; with the key [id], the item [{id: null, name: 'x'}] is new and
    [{id: 7, name: 'x'}] is not. *)
Theorem isNew_iff_key_null {KeyKind : Type}
    (m : CollectionManager.t KeyKind) (it : gmap string value) :
  (CollectionManager.isNew m it = true
   <-> get_property it (CollectionManager.key m) = VNull) /\
  (CollectionManager.key m = "id" ->
   CollectionManager.isNew m unsaved_item = true /\
   CollectionManager.isNew m saved_item = false).
Proof.
  split.
  - unfold CollectionManager.isNew. apply is_null_true.
  - intros Hkey. unfold CollectionManager.isNew. rewrite Hkey.
    split; vm_compute; reflexivity.
Qed.

Lemma isNew_iff_key_null_witness :
  CollectionManager.key id_manager = "id" /\
  CollectionManager.isNew id_manager unsaved_item = true /\
  CollectionManager.isNew id_manager saved_item = false.
Proof.
  assert (Hkey : CollectionManager.key id_manager = "id") by reflexivity.
  split; [exact Hkey |].
  exact (proj2 (isNew_iff_key_null id_manager unsaved_item) Hkey).
Defined.

(* ===================================================================== *)
(** * Properties of the configuration                                     *)
(* ===================================================================== *)

Section GlobalConfiguration.

Context {BadResponseHandler : Type}.
Variable builtin : BadResponseHandler.
Implicit Types (fn : BadResponseHandler)
  (glob : Config.GlobalConfig BadResponseHandler)
  (options : Config.ConfigOverride BadResponseHandler).

(** What [set] installs does not depend on what was active. *)
Lemma globalConfig_current options glob :
  Config._current (Config.globalConfig options glob)
  = Config.DecoratorConfig Config.defaultConfig options.
Proof. reflexivity. Qed.

(** C4.  After [globalConfig({badResponseHandler: fn})] the global
    configuration answers [fn]; after a further
    [globalConfig({badResponseHandler: 'default'})] it answers the built-in
    handler.  Each call decorates the built-in configuration, not the one
    that was active: a further [globalConfig({})] also gives the built-in
    handler back, and the active configuration is always one decorator
    over [defaultConfig]. *)
Theorem globalConfig_override_then_reset fn glob :
  let overridden :=
    Config.globalConfig
      {| Config.override_badResponseHandler := Some (Config.replacement fn) |}
      glob in
  Config.GlobalConfig_badResponseHandler builtin
    (Config.getGlobalConfig overridden) = fn /\
  Config.GlobalConfig_badResponseHandler builtin
    (Config.getGlobalConfig
       (Config.globalConfig
          {| Config.override_badResponseHandler := Some Config.resetValue |}
          overridden)) = builtin /\
  Config.GlobalConfig_badResponseHandler builtin
    (Config.getGlobalConfig
       (Config.globalConfig
          {| Config.override_badResponseHandler := None |}
          overridden)) = builtin /\
  (forall options,
      Config._current (Config.globalConfig options overridden)
      = Config.DecoratorConfig Config.defaultConfig options).
Proof.
  intros overridden. repeat split.
Qed.

End GlobalConfiguration.

(** With two handlers that differ, the reset is seen to give the built-in
    one and not the override. *)
Example globalConfig_reset_example :
  let glob :=
    Config.globalConfig
      {| Config.override_badResponseHandler := Some Config.resetValue |}
      (Config.globalConfig
         {| Config.override_badResponseHandler := Some (Config.replacement "fn") |}
         Config.GlobalConfig_new) in
  Config.GlobalConfig_badResponseHandler "builtin" (Config.getGlobalConfig glob)
  = "builtin".
Proof. reflexivity. Qed.

(* ===================================================================== *)
(** * Properties of the value mappers                                     *)
(* ===================================================================== *)

(** C9.  Where [packValue(v)] returns, [pack(v)] returns too, and what it
    returns is the JSON request body whose payload is [packValue(v)]. *)
Theorem pack_returns_json_body {T unknown : Type}
    (mapper : ValueMapper.t T unknown) (v : T) (packed : unknown) :
  ValueMapper.packValue mapper v = Returns packed ->
  ValueMapper.pack mapper v = Returns (ValueMapper.JsonRequestBody packed).
Proof. intros Hpacked. unfold ValueMapper.pack. now rewrite Hpacked. Qed.

Lemma pack_returns_json_body_witness :
  ValueMapper.packValue natural_mapper 7%Z = Returns (VNum 7) /\
  ValueMapper.pack natural_mapper 7%Z
  = Returns (ValueMapper.JsonRequestBody (VNum 7)).
Proof.
  assert (Hpacked : ValueMapper.packValue natural_mapper 7%Z = Returns (VNum 7))
    by reflexivity.
  split; [exact Hpacked |].
  exact (pack_returns_json_body natural_mapper 7%Z (VNum 7) Hpacked).
Defined.

(** [pack] adds no failure of its own: it throws only what [packValue]
    throws. *)
Lemma pack_throws_iff {T unknown : Type}
    (mapper : ValueMapper.t T unknown) (v : T) (e : value) :
  ValueMapper.pack mapper v = Throws e <-> ValueMapper.packValue mapper v = Throws e.
Proof.
  unfold ValueMapper.pack.
  destruct (ValueMapper.packValue mapper v); simpl; split; congruence.
Qed.

(* ===================================================================== *)
(** * Further properties of the field descriptors                         *)
(* ===================================================================== *)

Section FieldLaws.

Context {KeyKind : Type}.
Implicit Types (w : world KeyKind) (f g : AnyField KeyKind) (a r : ref)
  (o : FieldOpts.t) (v : value) (c : FieldClass KeyKind).

(** X1.  The constructor copies: from a descriptor and no options, or the
    options [{}], it builds a descriptor with the same seven options. *)
Theorem constructor_copies f :
  AnyField_constructor (class_of f) (Some f) None = f /\
  AnyField_constructor (class_of f) (Some f) (Some FieldOpts.empty) = f.
Proof. destruct f. split; reflexivity. Qed.

(** The constructor's defaults: with nothing to copy and no options
    the descriptor is readable and writable, not nullable, not optional,
    not marked as key, has the no-op checks, and its blank value is the
    default of its class. *)
Lemma constructor_defaults c :
  let d := AnyField_constructor c None None in
  isReadable d = true /\ isWritable d = true /\
  isNullable d = false /\ isOptional d = false /\
  _useAsKey d = false /\ currentChecks d = NoChecks /\
  blankValue d = class_defaultBlankValue c /\
  AnyField_constructor c None (Some FieldOpts.empty) = d.
Proof. repeat split. Qed.

(** X2.  The only error that [validate] adds of its own is
    "Required value missing.", and that only on a descriptor that is not
    optional, given [undefined]; in every other case the result is the
    checks' result. *)
Theorem validate_dichotomy f v :
  validate f v = Checks_validate (currentChecks f) v \/
  (validate f v = invalid "Required value missing." /\
   isOptional f = false /\ v = VUndefined).
Proof.
  unfold validate, currentChecks.
  destruct (isOptional f) eqn:Hopt; simpl; [now left |].
  destruct v; simpl; auto.
Qed.

(** ** The builders, option by option *)

(** What two builders in a row compute: two descriptors are allocated and
    each step warns under its own condition, the second judged on the
    result of the first. *)
Lemma two_builders_run w a f (cond1 cond2 : AnyField KeyKind -> bool)
    (msg1 msg2 : string) o1 o2 :
  heap w !! a = Some f ->
  (r <- (this <- deref a ;; _ <- warn_if (cond1 this) msg1 ;; cloneAsSelf a o1) ;;
   (this <- deref r ;; _ <- warn_if (cond2 this) msg2 ;; cloneAsSelf r o2)) w
  = let g1 := AnyField_constructor (class_of f) (Some f) (Some o1) in
    let g2 := AnyField_constructor (class_of f) (Some g1) (Some o2) in
    let c1 := if cond1 f then (console w ++ [msg1])%list else console w in
    Some (length (heap w ++ [g1]),
          {| heap := (heap w ++ [g1]) ++ [g2];
             console := if cond2 g1 then (c1 ++ [msg2])%list else c1 |}).
Proof.
  intros Ha. unfold bind at 1.
  rewrite (builder_run w a f cond1 msg1 o1 Ha).
  set (g1 := AnyField_constructor (class_of f) (Some f) (Some o1)).
  set (w1 := {| heap := heap w ++ [g1]; console := _ |}).
  assert (Hr : heap w1 !! length (heap w) = Some g1) by apply lookup_fresh.
  rewrite (builder_run w1 _ g1 cond2 msg2 o2 Hr).
  reflexivity.
Qed.

Lemma console_after_builder w a f (cond : AnyField KeyKind -> bool)
    (msg : string) o :
  heap w !! a = Some f ->
  console_after (this <- deref a ;; _ <- warn_if (cond this) msg ;; cloneAsSelf a o) w
  = Some (console w ++ (if cond f then [msg] else []))%list.
Proof.
  intros Ha. unfold console_after. rewrite (builder_run w a f cond msg o Ha).
  simpl. destruct (cond f); [reflexivity | now rewrite app_nil_r].
Qed.

Lemma console_after_two w a f (cond1 cond2 : AnyField KeyKind -> bool)
    (msg1 msg2 : string) o1 o2 :
  heap w !! a = Some f ->
  console_after
    (r <- (this <- deref a ;; _ <- warn_if (cond1 this) msg1 ;; cloneAsSelf a o1) ;;
     (this <- deref r ;; _ <- warn_if (cond2 this) msg2 ;; cloneAsSelf r o2)) w
  = Some ((console w ++ (if cond1 f then [msg1] else []))
          ++ (if cond2 (AnyField_constructor (class_of f) (Some f) (Some o1))
              then [msg2] else []))%list.
Proof.
  intros Ha. unfold console_after.
  rewrite (two_builders_run w a f cond1 cond2 msg1 msg2 o1 o2 Ha).
  cbv zeta. cbv beta iota.
  destruct (cond1 f), (cond2 _); now rewrite ?app_nil_r.
Qed.

(** The descriptor that each builder returns, option by option. *)
Lemma builder_results w a f v :
  heap w !! a = Some f ->
  result_of (readOnly a) w
  = Some {| class_of := class_of f; _blankValue := _blankValue f;
            _isReadable := true; _isWritable := false;
            _isNullable := _isNullable f; _isOptional := _isOptional f;
            _useAsKey := _useAsKey f; _checks := _checks f |} /\
  result_of (writeOnly a) w
  = Some {| class_of := class_of f; _blankValue := _blankValue f;
            _isReadable := false; _isWritable := true;
            _isNullable := _isNullable f; _isOptional := _isOptional f;
            _useAsKey := _useAsKey f; _checks := _checks f |} /\
  result_of (asKey a) w
  = Some {| class_of := class_of f; _blankValue := _blankValue f;
            _isReadable := _isReadable f; _isWritable := _isWritable f;
            _isNullable := _isNullable f; _isOptional := _isOptional f;
            _useAsKey := true; _checks := _checks f |} /\
  result_of (withBlankValue a v) w
  = Some {| class_of := class_of f; _blankValue := explicit v;
            _isReadable := _isReadable f; _isWritable := _isWritable f;
            _isNullable := _isNullable f; _isOptional := _isOptional f;
            _useAsKey := _useAsKey f; _checks := _checks f |}.
Proof.
  intros Ha. repeat split.
  - unfold readOnly.
    now rewrite (result_of_builder w a f (fun this => negb (_isReadable this)) _ _ Ha).
  - unfold writeOnly.
    now rewrite (result_of_builder w a f (fun this => negb (_isWritable this)) _ _ Ha).
  - unfold asKey.
    now rewrite (result_of_builder w a f (fun this => _useAsKey this) _ _ Ha).
  - unfold withBlankValue.
    now rewrite (result_of_builder w a f
                   (fun this => is_specified (_blankValue this)) _ _ Ha).
Qed.

(** X3.  Each builder changes the options it names and nothing else: the
    descriptor returned is the original with the access pair set
    ([readOnly], [writeOnly]), with the key mark set ([asKey]), or with the
    blank value made explicit ([withBlankValue]). *)
Theorem builders_change_only_their_option w a f v :
  heap w !! a = Some f ->
  result_of (readOnly a) w
  = Some {| class_of := class_of f; _blankValue := _blankValue f;
            _isReadable := true; _isWritable := false;
            _isNullable := _isNullable f; _isOptional := _isOptional f;
            _useAsKey := _useAsKey f; _checks := _checks f |} /\
  result_of (writeOnly a) w
  = Some {| class_of := class_of f; _blankValue := _blankValue f;
            _isReadable := false; _isWritable := true;
            _isNullable := _isNullable f; _isOptional := _isOptional f;
            _useAsKey := _useAsKey f; _checks := _checks f |} /\
  result_of (asKey a) w
  = Some {| class_of := class_of f; _blankValue := _blankValue f;
            _isReadable := _isReadable f; _isWritable := _isWritable f;
            _isNullable := _isNullable f; _isOptional := _isOptional f;
            _useAsKey := true; _checks := _checks f |} /\
  result_of (withBlankValue a v) w
  = Some {| class_of := class_of f; _blankValue := explicit v;
            _isReadable := _isReadable f; _isWritable := _isWritable f;
            _isNullable := _isNullable f; _isOptional := _isOptional f;
            _useAsKey := _useAsKey f; _checks := _checks f |}.
Proof. exact (builder_results w a f v). Qed.

(** X4.  No builder changes what [validate] answers: the descriptor that
    [readOnly], [writeOnly], [asKey] or [withBlankValue] returns validates
    every value as the original does. *)
Theorem builders_keep_validation w a f v0 :
  heap w !! a = Some f ->
  forall m, In m [readOnly a; writeOnly a; asKey a; withBlankValue a v0] ->
  exists g, result_of m w = Some g /\ forall v, validate g v = validate f v.
Proof.
  intros Ha m Hm.
  destruct (builder_results w a f v0 Ha)
    as (Hro & Hwo & Hkey & Hblank).
  simpl in Hm.
  destruct Hm as [<- | [<- | [<- | [<- | []]]]];
    eexists; (split; [eassumption | reflexivity]).
Qed.

(** X5.  The descriptor that [asKey] returns is an explicit key whatever
    its class, the heuristic and the hints; the other builders leave the
    answer of [isKey] as it was. *)
Theorem asKey_isKey_explicit {FieldRoleHints : Type}
    (isImplicitId : FieldRoleHints -> Likelihood.t) (hints : FieldRoleHints)
    w a f v0 :
  heap w !! a = Some f ->
  (exists g, result_of (asKey a) w = Some g /\
             isKey isImplicitId g hints = Likelihood.explicit) /\
  (forall m, In m [readOnly a; writeOnly a; withBlankValue a v0] ->
   exists g, result_of m w = Some g /\
             isKey isImplicitId g hints = isKey isImplicitId f hints).
Proof.
  intros Ha.
  destruct (builder_results w a f v0 Ha)
    as (Hro & Hwo & Hkey & Hblank).
  split.
  - eexists. split; [exact Hkey | reflexivity].
  - intros m Hm. simpl in Hm.
    destruct Hm as [<- | [<- | [<- | []]]];
      eexists; (split; [eassumption | reflexivity]).
Qed.

(** X6.  A builder writes to the console exactly when its guard holds of
    the descriptor it is called on, one line, after what was there:
    [readOnly] when the descriptor is not readable, [writeOnly] when it is
    not writable, [asKey] when it is marked already, [withBlankValue] when
    a blank value was given already. *)
Theorem builder_warns_iff w a f v :
  heap w !! a = Some f ->
  console_after (readOnly a) w
  = Some (console w ++
          if isReadable f then []
          else ["readOnly modifier used on non-readable field"])%list /\
  console_after (writeOnly a) w
  = Some (console w ++
          if isWritable f then []
          else ["writeOnly modifier used on non-writable field"])%list /\
  console_after (asKey a) w
  = Some (console w ++
          if _useAsKey f
          then ["asKey modifier used twice on the same field"] else [])%list /\
  console_after (withBlankValue a v) w
  = Some (console w ++
          match _blankValue f with
          | explicit _ => ["withBlankValue modifier used twice on the same field"]
          | unspecified => []
          end)%list.
Proof.
  intros Ha. repeat split.
  - unfold readOnly.
    rewrite (console_after_builder w a f (fun this => negb (_isReadable this)) _ _ Ha).
    unfold isReadable. now destruct (_isReadable f).
  - unfold writeOnly.
    rewrite (console_after_builder w a f (fun this => negb (_isWritable this)) _ _ Ha).
    unfold isWritable. now destruct (_isWritable f).
  - unfold asKey.
    now rewrite (console_after_builder w a f (fun this => _useAsKey this) _ _ Ha).
  - unfold withBlankValue.
    rewrite (console_after_builder w a f
               (fun this => is_specified (_blankValue this)) _ _ Ha).
    now destruct (_blankValue f).
Qed.

(** ** Builders in sequence *)

Local Ltac unfold_builders :=
  unfold readOnly, writeOnly, asKey, withBlankValue.

(** X7.  Switching the access mode always warns: [writeOnly] on the result
    of [readOnly] writes its warning, and [readOnly] on the result of
    [writeOnly] writes its own, after whatever the first call wrote. *)
Theorem access_switch_warns w a f :
  heap w !! a = Some f ->
  console_after (r <- readOnly a ;; writeOnly r) w
  = Some ((console w ++
           if isReadable f then []
           else ["readOnly modifier used on non-readable field"])
          ++ ["writeOnly modifier used on non-writable field"])%list /\
  console_after (r <- writeOnly a ;; readOnly r) w
  = Some ((console w ++
           if isWritable f then []
           else ["writeOnly modifier used on non-writable field"])
          ++ ["readOnly modifier used on non-readable field"])%list.
Proof.
  intros Ha. unfold_builders. split.
  - rewrite (console_after_two w a f (fun this => negb (_isReadable this))
               (fun this => negb (_isWritable this)) _ _ _ _ Ha).
    unfold isReadable. now destruct (_isReadable f).
  - rewrite (console_after_two w a f (fun this => negb (_isWritable this))
               (fun this => negb (_isReadable this)) _ _ _ _ Ha).
    unfold isWritable. now destruct (_isWritable f).
Qed.

(** X8.  Repeating [asKey] or [withBlankValue] always warns at the second
    call, whereas repeating [readOnly] or [writeOnly] never does: the
    second call adds nothing to what the first wrote. *)
Theorem repeated_builder_warnings w a f v1 v2 :
  heap w !! a = Some f ->
  console_after (r <- asKey a ;; asKey r) w
  = Some ((console w ++
           if _useAsKey f
           then ["asKey modifier used twice on the same field"] else [])
          ++ ["asKey modifier used twice on the same field"])%list /\
  console_after (r <- withBlankValue a v1 ;; withBlankValue r v2) w
  = Some ((console w ++
           if is_specified (_blankValue f)
           then ["withBlankValue modifier used twice on the same field"] else [])
          ++ ["withBlankValue modifier used twice on the same field"])%list /\
  console_after (r <- readOnly a ;; readOnly r) w
  = console_after (readOnly a) w /\
  console_after (r <- writeOnly a ;; writeOnly r) w
  = console_after (writeOnly a) w.
Proof.
  intros Ha. unfold_builders. repeat split.
  - now rewrite (console_after_two w a f (fun this => _useAsKey this)
                   (fun this => _useAsKey this) _ _ _ _ Ha).
  - now rewrite (console_after_two w a f
                   (fun this => is_specified (_blankValue this))
                   (fun this => is_specified (_blankValue this)) _ _ _ _ Ha).
  - rewrite (console_after_two w a f (fun this => negb (_isReadable this))
               (fun this => negb (_isReadable this)) _ _ _ _ Ha).
    rewrite (console_after_builder w a f
               (fun this => negb (_isReadable this)) _ _ Ha).
    simpl. now rewrite app_nil_r.
  - rewrite (console_after_two w a f (fun this => negb (_isWritable this))
               (fun this => negb (_isWritable this)) _ _ _ _ Ha).
    rewrite (console_after_builder w a f
               (fun this => negb (_isWritable this)) _ _ Ha).
    simpl. now rewrite app_nil_r.
Qed.

(** The descriptor that two builders in a row return. *)
Local Ltac result_of_sequences Ha :=
  unfold_builders;
  repeat (erewrite result_of_then by exact Ha);
  repeat (erewrite result_of_builder by exact Ha).

(** X9.  [readOnly], [writeOnly] and [asKey] are idempotent on the
    descriptor returned, and of two [withBlankValue] in a row the last
    value is the one that stays. *)
Theorem builders_idempotent w a f v1 v2 :
  heap w !! a = Some f ->
  result_of (r <- readOnly a ;; readOnly r) w = result_of (readOnly a) w /\
  result_of (r <- writeOnly a ;; writeOnly r) w = result_of (writeOnly a) w /\
  result_of (r <- asKey a ;; asKey r) w = result_of (asKey a) w /\
  result_of (r <- withBlankValue a v1 ;; withBlankValue r v2) w
  = result_of (withBlankValue a v2) w.
Proof.
  intros Ha. repeat split; result_of_sequences Ha; reflexivity.
Qed.

(** X10.  Builders that set different options commute: the descriptor
    returned does not depend on the order of [asKey], [withBlankValue] and
    an access modifier. *)
Theorem builders_commute w a f v :
  heap w !! a = Some f ->
  result_of (r <- asKey a ;; readOnly r) w
  = result_of (r <- readOnly a ;; asKey r) w /\
  result_of (r <- asKey a ;; writeOnly r) w
  = result_of (r <- writeOnly a ;; asKey r) w /\
  result_of (r <- asKey a ;; withBlankValue r v) w
  = result_of (r <- withBlankValue a v ;; asKey r) w /\
  result_of (r <- withBlankValue a v ;; readOnly r) w
  = result_of (r <- readOnly a ;; withBlankValue r v) w /\
  result_of (r <- withBlankValue a v ;; writeOnly r) w
  = result_of (r <- writeOnly a ;; withBlankValue r v) w.
Proof.
  intros Ha. repeat split; result_of_sequences Ha; reflexivity.
Qed.

End FieldLaws.

Lemma builders_change_only_their_option_witness :
  heap one_field_world !! 0%nat = Some (plain_field string_class) /\
  result_of (withBlankValue 0%nat (VStr "n/a")) one_field_world
  = Some (mkAnyField string_class (explicit (VStr "n/a"))
            true true false false false NoChecks).
Proof.
  assert (Ha : heap one_field_world !! 0%nat = Some (plain_field string_class))
    by reflexivity.
  split; [exact Ha |].
  destruct (builders_change_only_their_option one_field_world 0%nat _
              (VStr "n/a") Ha) as (_ & _ & _ & Hblank).
  exact Hblank.
Defined.

Lemma builders_keep_validation_witness :
  heap one_field_world !! 0%nat = Some (plain_field string_class) /\
  In (asKey 0%nat : M unit ref)
     [readOnly 0%nat; writeOnly 0%nat; asKey 0%nat; withBlankValue 0%nat VNull] /\
  (exists g, result_of (asKey 0%nat) one_field_world = Some g /\
             forall v, validate g v = validate (plain_field string_class) v).
Proof.
  assert (Ha : heap one_field_world !! 0%nat = Some (plain_field string_class))
    by reflexivity.
  assert (Hin : In (asKey (KeyKind := unit) 0%nat)
                  [readOnly 0%nat; writeOnly 0%nat; asKey 0%nat;
                   withBlankValue 0%nat VNull])
    by (simpl; auto).
  split; [exact Ha |]. split; [exact Hin |].
  exact (builders_keep_validation one_field_world 0%nat _ VNull Ha _ Hin).
Defined.

Lemma asKey_isKey_explicit_witness :
  heap one_field_world !! 0%nat = Some (plain_field string_class) /\
  (exists g, result_of (asKey 0%nat) one_field_world = Some g /\
             isKey name_length_heuristic g "name" = Likelihood.explicit).
Proof.
  assert (Ha : heap one_field_world !! 0%nat = Some (plain_field string_class))
    by reflexivity.
  split; [exact Ha |].
  exact (proj1 (asKey_isKey_explicit name_length_heuristic "name"
                  one_field_world 0%nat _ VNull Ha)).
Defined.

Lemma builder_warns_iff_witness :
  heap one_field_world !! 0%nat = Some (plain_field string_class) /\
  console_after (readOnly 0%nat) one_field_world = Some [].
Proof.
  assert (Ha : heap one_field_world !! 0%nat = Some (plain_field string_class))
    by reflexivity.
  split; [exact Ha |].
  exact (proj1 (builder_warns_iff one_field_world 0%nat _ VNull Ha)).
Defined.

Lemma access_switch_warns_witness :
  heap one_field_world !! 0%nat = Some (plain_field string_class) /\
  console_after (r <- readOnly 0%nat ;; writeOnly r) one_field_world
  = Some ["writeOnly modifier used on non-writable field"].
Proof.
  assert (Ha : heap one_field_world !! 0%nat = Some (plain_field string_class))
    by reflexivity.
  split; [exact Ha |].
  exact (proj1 (access_switch_warns one_field_world 0%nat _ Ha)).
Defined.

Lemma repeated_builder_warnings_witness :
  heap one_field_world !! 0%nat = Some (plain_field string_class) /\
  console_after (r <- asKey 0%nat ;; asKey r) one_field_world
  = Some ["asKey modifier used twice on the same field"].
Proof.
  assert (Ha : heap one_field_world !! 0%nat = Some (plain_field string_class))
    by reflexivity.
  split; [exact Ha |].
  exact (proj1 (repeated_builder_warnings one_field_world 0%nat _ VNull VNull Ha)).
Defined.

Lemma builders_idempotent_witness :
  heap one_field_world !! 0%nat = Some (plain_field string_class) /\
  result_of (r <- withBlankValue 0%nat (VNum 1) ;; withBlankValue r (VNum 2))
    one_field_world
  = result_of (withBlankValue 0%nat (VNum 2)) one_field_world.
Proof.
  assert (Ha : heap one_field_world !! 0%nat = Some (plain_field string_class))
    by reflexivity.
  split; [exact Ha |].
  destruct (builders_idempotent one_field_world 0%nat _ (VNum 1) (VNum 2) Ha)
    as (_ & _ & _ & Hlast).
  exact Hlast.
Defined.

Lemma builders_commute_witness :
  heap one_field_world !! 0%nat = Some (plain_field string_class) /\
  result_of (r <- asKey 0%nat ;; readOnly r) one_field_world
  = result_of (r <- readOnly 0%nat ;; asKey r) one_field_world.
Proof.
  assert (Ha : heap one_field_world !! 0%nat = Some (plain_field string_class))
    by reflexivity.
  split; [exact Ha |].
  exact (proj1 (builders_commute one_field_world 0%nat _ VNull Ha)).
Defined.

(* ===================================================================== *)
(** * Further properties of the collection manager                        *)
(* ===================================================================== *)

Section CollectionLaws.

Context {KeyKind : Type}.
Implicit Types (m : CollectionManager.t KeyKind) (it : gmap string value)
  (k : value) (p : string).




(** X14.  The manager is built from what [findKey] returns: its [key] and
    [keyKind] are the property and the kind found, and [createInstance]
    asks the interpreter for an instance with that key.  When [findKey]
    throws, so does the constructor, with the same error. *)
Theorem constructor_from_findKey
    (interpreter : CollectionManager.DescriptorInterpreter KeyKind) :
  (forall p (kind : KeyKind),
      CollectionManager.findKey interpreter = Returns (p, kind) ->
      exists m,
        CollectionManager.constructor interpreter = Returns m /\
        CollectionManager.key m = p /\
        CollectionManager.keyKind m = kind /\
        CollectionManager.createInstance m
        = CollectionManager.interpreter_createInstance interpreter p) /\
  (forall e,
      CollectionManager.findKey interpreter = Throws e <->
      CollectionManager.constructor interpreter = Throws e).
Proof.
  unfold CollectionManager.constructor. split.
  - intros p kind Hfound. rewrite Hfound. simpl.
    eexists. split; [reflexivity |]. repeat split.
  - intros e. destruct (CollectionManager.findKey interpreter); simpl;
      split; congruence.
Qed.

End CollectionLaws.



Lemma constructor_from_findKey_witness :
  CollectionManager.findKey id_interpreter = Returns ("id", tt) /\
  (exists m,
      CollectionManager.constructor id_interpreter = Returns m /\
      CollectionManager.key m = "id" /\
      CollectionManager.keyKind m = tt /\
      CollectionManager.createInstance m
      = CollectionManager.interpreter_createInstance id_interpreter "id") /\
  CollectionManager.constructor keyless_interpreter = Throws (VStr "no key").
Proof.
  assert (Hfound : CollectionManager.findKey id_interpreter = Returns ("id", tt))
    by reflexivity.
  assert (Hthrown : CollectionManager.findKey keyless_interpreter
                    = Throws (VStr "no key"))
    by reflexivity.
  split; [exact Hfound |]. split.
  - exact (proj1 (constructor_from_findKey id_interpreter) "id" tt Hfound).
  - exact (proj1 (proj2 (constructor_from_findKey keyless_interpreter) _) Hthrown).
Defined.

(* ===================================================================== *)
(** * Further properties of the configuration                             *)
(* ===================================================================== *)

Section ConfigLaws.

Context {BadResponseHandler : Type}.
Variable builtin : BadResponseHandler.
Implicit Types (c : Config.t BadResponseHandler)
  (glob : Config.GlobalConfig BadResponseHandler)
  (options : Config.ConfigOverride BadResponseHandler).

(** X15.  Through any stack of decorators the outermost layer that
    overrides decides: its replacement, or the built-in handler when it
    says 'default'; layers that override nothing are transparent, and with
    no overriding layer the handler is the built-in one. *)
Theorem decorators_outermost_override_wins c :
  Config.badResponseHandler builtin c
  = override_value builtin (outermost_override c).
Proof.
  induction c as [| wrapped IH overrides]; [reflexivity |].
  simpl. destruct (Config.override_badResponseHandler overrides) as [[| fn] |];
    simpl; [reflexivity | reflexivity | exact IH].
Qed.

(** X16.  The global configuration starts with the built-in handler, and
    after any sequence of [globalConfig] calls it answers as the last call
    alone asks: nothing of the earlier calls is left. *)
Theorem globalConfig_last_call_decides
    (calls : list (Config.ConfigOverride BadResponseHandler)) options glob :
  Config.GlobalConfig_badResponseHandler builtin
    (Config.getGlobalConfig Config.GlobalConfig_new) = builtin /\
  Config.GlobalConfig_badResponseHandler builtin
    (Config.getGlobalConfig (globalConfig_calls (calls ++ [options]) glob))
  = override_value builtin (Config.override_badResponseHandler options).
Proof.
  split; [reflexivity |].
  unfold globalConfig_calls. rewrite fold_left_app. simpl.
  unfold Config.GlobalConfig_badResponseHandler, Config.getGlobalConfig,
    Config.globalConfig, Config.set.
  simpl. unfold Config.overrideConfigProperty.
  now destruct (Config.override_badResponseHandler options) as [[| fn] |].
Qed.

End ConfigLaws.

(* ===================================================================== *)
(** * Further properties of the value mappers                             *)
(* ===================================================================== *)

Section MapperLaws.

Context {T unknown : Type}.
Implicit Types (mapper : ValueMapper.t T unknown)
  (response : ValueMapper.ResponseBody unknown) (e : value).

(** X17.  [pack] throws exactly what [packValue] throws: it adds no
    failure of its own. *)
Theorem pack_throws_what_packValue_throws mapper (v : T) e :
  ValueMapper.pack mapper v = Throws e
  <-> ValueMapper.packValue mapper v = Throws e.
Proof.
  unfold ValueMapper.pack.
  destruct (ValueMapper.packValue mapper v); simpl; split; congruence.
Qed.

(** X18.  [unpack] returns a value exactly when the body is read and
    [unpackValue] returns that value of it; it throws exactly when reading
    the body throws, in which case [unpackValue] is not consulted, or
    [unpackValue] throws on the body read. *)
Theorem unpack_outcomes mapper response :
  (forall v : T,
      ValueMapper.unpack mapper response = Returns v <->
      exists body, ValueMapper.json response = Returns body /\
                   ValueMapper.unpackValue mapper body = Returns v) /\
  (forall e,
      ValueMapper.unpack mapper response = Throws e <->
      ValueMapper.json response = Throws e \/
      exists body, ValueMapper.json response = Returns body /\
                   ValueMapper.unpackValue mapper body = Throws e).
Proof.
  unfold ValueMapper.unpack.
  destruct (ValueMapper.json response) as [body | e0]; simpl; split.
  - intros v. split; [eauto |].
    intros [b [Hb Hv]]. congruence.
  - intros e. split; [eauto |].
    intros [Hj | [b [Hb He]]]; congruence.
  - intros v. split; [discriminate |].
    intros [b [Hb Hv]]. discriminate Hb.
  - intros e. split; [intros Hj; left; congruence |].
    intros [Hj | [b [Hb He]]]; [congruence | discriminate Hb].
Qed.

(** X19.  Round trip: when [unpackValue] inverts [packValue] at [v], a
    response whose body is the payload of [pack(v)] unpacks to [v]. *)
Theorem pack_unpack_round_trip mapper (v : T) (packed : unknown) :
  ValueMapper.packValue mapper v = Returns packed ->
  ValueMapper.unpackValue mapper packed = Returns v ->
  exists payload,
    ValueMapper.pack mapper v = Returns (ValueMapper.JsonRequestBody payload) /\
    ValueMapper.unpack mapper {| ValueMapper.json := Returns payload |}
    = Returns v.
Proof.
  intros Hpack Hunpack. exists packed.
  unfold ValueMapper.pack, ValueMapper.unpack. rewrite Hpack. simpl.
  now rewrite Hunpack.
Qed.

End MapperLaws.

Lemma pack_unpack_round_trip_witness :
  ValueMapper.packValue natural_mapper 7%Z = Returns (VNum 7) /\
  ValueMapper.unpackValue natural_mapper (VNum 7) = Returns 7%Z /\
  (exists payload,
      ValueMapper.pack natural_mapper 7%Z
      = Returns (ValueMapper.JsonRequestBody payload) /\
      ValueMapper.unpack natural_mapper {| ValueMapper.json := Returns payload |}
      = Returns 7%Z).
Proof.
  assert (Hpack : ValueMapper.packValue natural_mapper 7%Z = Returns (VNum 7))
    by reflexivity.
  assert (Hunpack : ValueMapper.unpackValue natural_mapper (VNum 7) = Returns 7%Z)
    by reflexivity.
  split; [exact Hpack |]. split; [exact Hunpack |].
  exact (pack_unpack_round_trip natural_mapper 7%Z (VNum 7) Hpack Hunpack).
Defined.
